(** * generate_icons.py: the icon renderer and the batch writer

    A shallow embedding of [src/generate_icons.py].  The script draws a fixed
    composition of shapes, scaled from a 1024-unit design canvas, on an RGBA
    canvas ([create_family_health_icon]) and saves one PNG per entry of a
    fixed list ([main]).

    The script's own code is embedded line by line.  What it calls in the
    imaging library is modelled from the library's documented contract:
    a fill replaces the pixels of the shape by the fill colour (drawing on
    an RGBA canvas does not blend), a rectangle is its inclusive box, a
    box with [x1 < x0] or [y1 < y0] is refused with [ValueError], and a
    canvas with a negative side or one beyond a C int is refused by
    [Image.new].  The exact pixel set of an ellipse, a rounded rectangle or
    a polygon, and the PNG byte encoding, are left abstract in the class
    [Pillow]. *)

From Stdlib Require Import ZArith QArith Lia Ascii String List Bool.
From stdpp Require Import base gmap strings list.

Local Open Scope string_scope.
Local Open Scope Z_scope.

(** ** Numbers

    The script mixes Python ints and floats.  Every float it computes is
    [k * (size / 1024.0)] for an integer constant [k < 1024]; as 1024 is a
    power of two, binary64 represents these values exactly whenever
    [k * size < 2^53], which holds at every size for which [Image.new]
    creates the canvas (below [2^31]), so floats are modelled by the
    rationals they denote.  The sizes of the list of
    [main], ints but for 83.5, are rationals too. *)

Definition float := Q.

(** [int(v)]: Python's conversion of a number to an int truncates toward
    zero. *)
Definition int (v : float) : Z := Z.quot (Qnum v) (Zpos (Qden v)).

(** ** Errors *)

Inductive exn := ValueError | OverflowError | IndexError | FileNotFoundError.

Inductive result (A : Type) :=
| Ok (a : A)
| Raise (e : exn).
Arguments Ok {A} a.
Arguments Raise {A} e.

#[global] Instance result_ret : MRet result := fun _ a => Ok a.
#[global] Instance result_bind : MBind result :=
  fun _ _ f m => match m with Ok a => f a | Raise e => Raise e end.

(** ** Images *)

Definition color := (Z * Z * Z * Z)%type.
Definition box := (Z * Z * Z * Z)%type.

Definition alpha (c : color) : Z := c.2.

Record Image := {
  im_mode : string;
  im_width : Z;
  im_height : Z;
  im_px : Z -> Z -> color
}.

(** The largest C int: the library hands the two sides of a canvas to C
    code as ints. *)
Definition INT_MAX : Z := 2147483647.

(** [Image.new(mode, (w, h), color)]: a negative side is refused with
    [ValueError], one that does not fit a C int with [OverflowError].  Only
    the refusals that depend on the size alone are modelled, not the memory
    the machine has left. *)
Definition Image_new (mode : string) (size : Z * Z) (c : color) : result Image :=
  if (size.1 <? 0) || (size.2 <? 0) then Raise ValueError
  else if (INT_MAX <? size.1) || (INT_MAX <? size.2) then Raise OverflowError
  else Ok {| im_mode := mode; im_width := size.1; im_height := size.2;
             im_px := fun _ _ => c |}.

Definition in_canvas (img : Image) (x y : Z) : bool :=
  (0 <=? x) && (x <? im_width img) && (0 <=? y) && (y <? im_height img).

(** [img.getpixel((x, y))]: a negative coordinate counts from the far
    edge. *)
Definition getpixel (img : Image) (x y : Z) : result color :=
  let x' := if x <? 0 then x + im_width img else x in
  let y' := if y <? 0 then y + im_height img else y in
  if in_canvas img x' y' then Ok (im_px img x' y') else Raise IndexError.

(** ** Shapes and the imaging library *)

Definition in_box (b : box) (x y : Z) : bool :=
  let '(x0, y0, x1, y1) := b in
  (x0 <=? x) && (x <=? x1) && (y0 <=? y) && (y <=? y1).

(** The smallest box around a list of vertices, as a test on a pixel. *)
Definition in_hull_box (pts : list (Z * Z)) (x y : Z) : bool :=
  existsb (fun p => p.1 <=? x) pts && existsb (fun p => x <=? p.1) pts &&
  existsb (fun p => p.2 <=? y) pts && existsb (fun p => y <=? p.2) pts.

(** What the script takes from the imaging library without the library's
    documentation fixing the result pixel by pixel: which pixels a filled
    ellipse, rounded rectangle and polygon cover, and the bytes of a PNG
    file.  The library's code is not part of the repository, so the
    statements below are proved for every instance of this class.  Its laws
    are assumptions on the scan conversion: a shape is drawn inside its
    bounding box (polygon: the box around its vertices), as documented; a
    filled ellipse of three pixels or more each way covers the middle of
    its box; and one of five pixels or more each way leaves the top left
    corner of its box out. *)
Class Pillow := {
  ellipse_px : box -> Z -> Z -> bool;
  rounded_px : box -> Z -> Z -> Z -> bool;
  polygon_px : list (Z * Z) -> Z -> Z -> bool;
  png_encode : Image -> list Byte.byte;
  ellipse_in_box : forall b x y, ellipse_px b x y = true -> in_box b x y = true;
  rounded_in_box : forall b r x y, rounded_px b r x y = true -> in_box b x y = true;
  polygon_in_box : forall pts x y,
    polygon_px pts x y = true -> in_hull_box pts x y = true;
  ellipse_centre : forall x0 y0 x1 y1,
    x0 + 2 <= x1 -> y0 + 2 <= y1 ->
    ellipse_px (x0, y0, x1, y1) ((x0 + x1) / 2) ((y0 + y1) / 2) = true;
  ellipse_corner : forall x0 y0 x1 y1,
    x0 + 4 <= x1 -> y0 + 4 <= y1 ->
    ellipse_px (x0, y0, x1, y1) x0 y0 = false
}.

(** How the library draws the smallest shapes: an ellipse whose box is a
    single point paints nothing, nor does a rounded rectangle of radius 0
    on such a box, and an ellipse whose box is two pixels each way fills
    it.  Only the statement about the corner pixel needs these. *)
Class SmallShapes (P : Pillow) : Prop := {
  ellipse_point : forall x0 y0 x y, ellipse_px (x0, y0, x0, y0) x y = false;
  rounded_point : forall x0 y0 x y, rounded_px (x0, y0, x0, y0) 0 x y = false;
  ellipse_two : forall x0 y0 x y,
    in_box (x0, y0, x0 + 1, y0 + 1) x y = true ->
    ellipse_px (x0, y0, x0 + 1, y0 + 1) x y = true
}.

(** One call on the [ImageDraw] object. *)
Inductive shape :=
| ellipse (xy : box) (fill : color)
| rounded_rectangle (xy : box) (radius : Z) (fill : color)
| polygon (xy : list (Z * Z)) (fill : color)
| rectangle (xy : box) (fill : color).

Definition fill_of (s : shape) : color :=
  match s with
  | ellipse _ c | rounded_rectangle _ _ c | polygon _ c | rectangle _ c => c
  end.

(** The bounding box of a shape, as a test on a pixel. *)
Definition shape_box (s : shape) (x y : Z) : bool :=
  match s with
  | ellipse b _ | rounded_rectangle b _ _ | rectangle b _ => in_box b x y
  | polygon pts _ => in_hull_box pts x y
  end.

(** The library refuses a box whose corners are out of order, and a polygon
    of fewer than two points. *)
Definition box_ok (b : box) : bool :=
  let '(x0, y0, x1, y1) := b in (x0 <=? x1) && (y0 <=? y1).

Definition shape_ok (s : shape) : bool :=
  match s with
  | ellipse b _ | rounded_rectangle b _ _ | rectangle b _ => box_ok b
  | polygon pts _ => (2 <=? Z.of_nat (length pts))
  end.

Section Drawing.
Context `{P : Pillow}.

(** The pixels a shape covers. *)
Definition covers (s : shape) (x y : Z) : bool :=
  match s with
  | ellipse b _ => ellipse_px b x y
  | rounded_rectangle b r _ => rounded_px b r x y
  | polygon pts _ => polygon_px pts x y
  | rectangle b _ => in_box b x y
  end.

(** A fill writes the colour into every covered pixel of the canvas. *)
Definition paint (img : Image) (s : shape) : Image :=
  {| im_mode := im_mode img; im_width := im_width img;
     im_height := im_height img;
     im_px := fun x y =>
       if in_canvas img x y && covers s x y then fill_of s
       else im_px img x y |}.

(** [draw.ellipse(..)], [draw.rounded_rectangle(..)], [draw.polygon(..)],
    [draw.rectangle(..)] on [draw = ImageDraw.Draw(img)]. *)
Definition draw (img : Image) (s : shape) : result Image :=
  if shape_ok s then Ok (paint img s) else Raise ValueError.

Fixpoint draw_all (img : Image) (l : list shape) : result Image :=
  match l with
  | [] => Ok img
  | s :: l' => img' ← draw img s; draw_all img' l'
  end.

End Drawing.

(** ** The icon renderer *)

(** The drawing calls of [create_family_health_icon], in the order the
    function makes them, with the coordinates it computes. *)
Definition icon_shapes (size : Z) : list shape :=
  (* Calculate scaling factor *)
  let scale : float := (inject_Z size / 1024)%Q in
  (* Background gradient (simplified to solid color) *)
  let bg_color := (74, 144, 226, 255) in
  (* Family silhouettes *)
  let white := (255, 255, 255, 230) in
  (* Parent 1 (left) *)
  let parent1_x := int (300 * scale)%Q in
  let parent1_y := int (400 * scale)%Q in
  let parent1_radius := int (60 * scale)%Q in
  (* Parent 1 body *)
  let parent1_body_x := int (270 * scale)%Q in
  let parent1_body_y := int (460 * scale)%Q in
  let parent1_body_w := int (60 * scale)%Q in
  let parent1_body_h := int (120 * scale)%Q in
  (* Parent 2 (right) *)
  let parent2_x := int (724 * scale)%Q in
  let parent2_y := int (400 * scale)%Q in
  let parent2_radius := int (60 * scale)%Q in
  (* Parent 2 body *)
  let parent2_body_x := int (694 * scale)%Q in
  let parent2_body_y := int (460 * scale)%Q in
  let parent2_body_w := int (60 * scale)%Q in
  let parent2_body_h := int (120 * scale)%Q in
  (* Child 1 (center-left) *)
  let child1_x := int (400 * scale)%Q in
  let child1_y := int (500 * scale)%Q in
  let child1_radius := int (40 * scale)%Q in
  (* Child 1 body *)
  let child1_body_x := int (380 * scale)%Q in
  let child1_body_y := int (540 * scale)%Q in
  let child1_body_w := int (40 * scale)%Q in
  let child1_body_h := int (80 * scale)%Q in
  (* Child 2 (center-right) *)
  let child2_x := int (624 * scale)%Q in
  let child2_y := int (500 * scale)%Q in
  let child2_radius := int (40 * scale)%Q in
  (* Child 2 body *)
  let child2_body_x := int (604 * scale)%Q in
  let child2_body_y := int (540 * scale)%Q in
  let child2_body_w := int (40 * scale)%Q in
  let child2_body_h := int (80 * scale)%Q in
  (* Heart symbol in center *)
  let heart_color := (255, 107, 107, 255) in
  let heart_x := int (512 * scale)%Q in
  let heart_y := int (650 * scale)%Q in
  let heart_size := int (60 * scale)%Q in
  (* Simple heart shape *)
  let heart_left := heart_x - heart_size in
  let heart_right := heart_x + heart_size in
  let heart_top := heart_y - heart_size in
  let heart_bottom := heart_y + heart_size in
  (* Health cross in heart *)
  let cross_color := (255, 255, 255, 230) in
  let cross_x := int (500 * scale)%Q in
  let cross_y := int (520 * scale)%Q in
  let cross_w := int (24 * scale)%Q in
  let cross_h := int (80 * scale)%Q in
  let cross_h_w := int (64 * scale)%Q in
  let cross_h_h := int (24 * scale)%Q in
  [ ellipse (0, 0, size, size) bg_color;
    ellipse (parent1_x - parent1_radius, parent1_y - parent1_radius,
             parent1_x + parent1_radius, parent1_y + parent1_radius) white;
    rounded_rectangle (parent1_body_x, parent1_body_y,
                       parent1_body_x + parent1_body_w,
                       parent1_body_y + parent1_body_h)
                      (int (30 * scale)%Q) white;
    ellipse (parent2_x - parent2_radius, parent2_y - parent2_radius,
             parent2_x + parent2_radius, parent2_y + parent2_radius) white;
    rounded_rectangle (parent2_body_x, parent2_body_y,
                       parent2_body_x + parent2_body_w,
                       parent2_body_y + parent2_body_h)
                      (int (30 * scale)%Q) white;
    ellipse (child1_x - child1_radius, child1_y - child1_radius,
             child1_x + child1_radius, child1_y + child1_radius) white;
    rounded_rectangle (child1_body_x, child1_body_y,
                       child1_body_x + child1_body_w,
                       child1_body_y + child1_body_h)
                      (int (20 * scale)%Q) white;
    ellipse (child2_x - child2_radius, child2_y - child2_radius,
             child2_x + child2_radius, child2_y + child2_radius) white;
    rounded_rectangle (child2_body_x, child2_body_y,
                       child2_body_x + child2_body_w,
                       child2_body_y + child2_body_h)
                      (int (20 * scale)%Q) white;
    (* Draw heart (simplified as two circles and triangle) *)
    ellipse (heart_left, heart_top, heart_x, heart_y) heart_color;
    ellipse (heart_x, heart_top, heart_right, heart_y) heart_color;
    polygon [(heart_x, heart_y); (heart_left, heart_bottom);
             (heart_right, heart_bottom)] heart_color;
    (* Vertical line *)
    rectangle (cross_x, cross_y, cross_x + cross_w, cross_y + cross_h)
              cross_color;
    (* Horizontal line *)
    rectangle (cross_x - int (20 * scale)%Q, cross_y + int (20 * scale)%Q,
               cross_x + cross_h_w - int (20 * scale)%Q,
               cross_y + int (20 * scale)%Q + cross_h_h) cross_color ].

(** Create a family health themed icon at the specified size. *)
Definition create_family_health_icon `{P : Pillow} (size : Z) : result Image :=
  (* Create image with transparent background *)
  img ← Image_new "RGBA" (size, size) (0, 0, 0, 0);
  draw_all img (icon_shapes size).

(** ** The batch writer *)

(** The part of the file system the script touches: the directories that
    exist and the contents of the files. *)
Record filesystem := {
  dirs : gset string;
  files : gmap string (list Byte.byte)
}.

(** [os.path.join(a, b)] on a POSIX system. *)
Definition os_path_join (a b : string) : string :=
  if String.prefix "/" b then b
  else if (String.eqb a "") || String.eqb (substring (String.length a - 1) 1 a) "/"
       then a ++ b
       else a ++ "/" ++ b.

(** The directory part of a path: what stands before its last slash. *)
Fixpoint dirname (p : string) : string :=
  match p with
  | EmptyString => EmptyString
  | String c p' =>
      if existsb (Ascii.eqb "/"%char) (list_ascii_of_string p')
      then String c (dirname p')
      else EmptyString
  end.

(** [img.save(path, "PNG")]: opening the file fails when its directory does
    not exist; an existing file is overwritten. *)
Definition save `{P : Pillow} (fs : filesystem) (img : Image) (path : string)
    : result filesystem :=
  if decide (dirname path ∈ dirs fs)
  then Ok {| dirs := dirs fs; files := <[path := png_encode img]> (files fs) |}
  else Raise FileNotFoundError.

Definition icon_sizes : list (float * string) :=
  [ (20, "icon_20.png");
    (29, "icon_29.png");
    (40, "icon_40.png");
    (60, "icon_60.png");
    (76, "icon_76.png");
    (83.5, "icon_83.5.png");
    (120, "icon_120.png");
    (152, "icon_152.png");
    (167, "icon_167.png");
    (1024, "icon_1024.png") ]%Q.

Definition output_dir : string := "RecipeApp/Assets.xcassets/AppIcon.appiconset".

(** The loop of [main] over the entries that remain.  The progress lines
    it prints are not modelled: no file depends on them. *)
Fixpoint generate `{P : Pillow} (fs : filesystem) (l : list (float * string))
    : result filesystem :=
  match l with
  | [] => Ok fs
  | (size, filename) :: l' =>
      icon ← create_family_health_icon (int size);
      fs' ← save fs icon (os_path_join output_dir filename);
      generate fs' l'
  end.

(** Generate all required icon sizes. *)
Definition main `{P : Pillow} (fs : filesystem) : result filesystem :=
  generate fs icon_sizes.

(** ** Reading the result

    Notions the statements below are made of. *)

(** [int(k * scale)] with [scale = size / 1024.0]. *)
Definition scaled (k size : Z) : Z := (k * size) ÷ 1024.

Section Reading.
Context `{P : Pillow}.

Definition paint_all (img : Image) (l : list shape) : Image :=
  foldl paint img l.

(** The canvas [Image.new] hands to the drawing calls. *)
Definition blank (size : Z) : Image :=
  {| im_mode := "RGBA"; im_width := size; im_height := size;
     im_px := fun _ _ => (0, 0, 0, 0) |}.

(** The image [create_family_health_icon] returns when no call is refused. *)
Definition icon_image (size : Z) : Image :=
  paint_all (blank size) (icon_shapes size).

(** The last shape of [l], in drawing order, that covers the pixel. *)
Fixpoint topmost (l : list shape) (x y : Z) : option shape :=
  match l with
  | [] => None
  | s :: l' =>
      match topmost l' x y with
      | Some t => Some t
      | None => if covers s x y then Some s else None
      end
  end.

(** The pixel is covered by some shape of [l]. *)
Definition drawn (l : list shape) (x y : Z) : bool :=
  existsb (fun s => covers s x y) l.

End Reading.

Definition transparent : color := (0, 0, 0, 0).
Definition blue : color := (74, 144, 226, 255).
Definition white : color := (255, 255, 255, 230).
Definition red : color := (255, 107, 107, 255).

Definition palette : list color := [transparent; blue; white; red].

(** The calls that draw the heart (the tenth to the twelfth) and the cross
    (the last two). *)
Definition heart (size : Z) : list shape := take 3 (drop 9 (icon_shapes size)).
Definition cross (size : Z) : list shape := drop 12 (icon_shapes size).

(** A disc given by centre and radius, the way the script draws the heads. *)
Definition disc (cx cy r : Z) (fill : color) : shape :=
  ellipse (cx - r, cy - r, cx + r, cy + r) fill.

(** The heart as the specification words it: two discs of radius [60 s]
    centred at [(452 s, 590 s)] and [(572 s, 590 s)], and the triangle
    [(512 s, 650 s)], [(452 s, 710 s)], [(572 s, 710 s)]. *)
Definition spec_heart (size : Z) : list shape :=
  [ disc (scaled 452 size) (scaled 590 size) (scaled 60 size) red;
    disc (scaled 572 size) (scaled 590 size) (scaled 60 size) red;
    polygon [(scaled 512 size, scaled 650 size);
             (scaled 452 size, scaled 710 size);
             (scaled 572 size, scaled 710 size)] red ].

(** The cross as the specification words it: the rectangles from
    [(500 s, 520 s)] to [(524 s, 600 s)] and from [(480 s, 540 s)] to
    [(544 s, 564 s)], every product truncated. *)
Definition spec_cross (size : Z) : list shape :=
  [ rectangle (scaled 500 size, scaled 520 size,
               scaled 524 size, scaled 600 size) white;
    rectangle (scaled 480 size, scaled 540 size,
               scaled 544 size, scaled 564 size) white ].

(** The coordinates a call is given. *)
Definition coords (s : shape) : list Z :=
  match s with
  | ellipse (x0, y0, x1, y1) _ | rectangle (x0, y0, x1, y1) _ =>
      [x0; y0; x1; y1]
  | rounded_rectangle (x0, y0, x1, y1) r _ => [x0; y0; x1; y1; r]
  | polygon pts _ => flat_map (fun p => [p.1; p.2]) pts
  end.

(** The file [main] writes for an entry of the list. *)
Definition icon_path (filename : string) : string :=
  os_path_join output_dir filename.

(** The files after the loop of [main] has run over [l]. *)
Definition written `{P : Pillow} (m : gmap string (list Byte.byte))
    (l : list (float * string)) : gmap string (list Byte.byte) :=
  foldl (fun m e => <[icon_path e.2 := png_encode (icon_image (int e.1))]> m) m l.

(** Two file systems to run [main] on: the output directory, empty, and the
    output directory with an icon left by some earlier tool. *)
Definition fresh_disk : filesystem :=
  {| dirs := {[ output_dir ]}; files := ∅ |}.

Definition stale_disk : filesystem :=
  {| dirs := {[ output_dir ]};
     files := {[ icon_path "icon_20.png" := [Byte.x00] ]} |}.

(** A file system in which the output directory was never created. *)
Definition bare_disk : filesystem := {| dirs := ∅; files := ∅ |}.

(** An ellipse, or a rounded rectangle of radius 0, whose box is a single
    point. *)
Definition point_shape (s : shape) : bool :=
  match s with
  | ellipse (x0, y0, x1, y1) _ => (x0 =? x1) && (y0 =? y1)
  | rounded_rectangle (x0, y0, x1, y1) r _ =>
      (x0 =? x1) && (y0 =? y1) && (r =? 0)
  | _ => false
  end.

(** A shape with every coordinate multiplied by [m]. *)
Definition scale_box (m : Z) (b : box) : box :=
  let '(x0, y0, x1, y1) := b in (m * x0, m * y0, m * x1, m * y1).

Definition scale_shape (m : Z) (s : shape) : shape :=
  match s with
  | ellipse b c => ellipse (scale_box m b) c
  | rounded_rectangle b r c => rounded_rectangle (scale_box m b) (m * r) c
  | polygon pts c => polygon (map (fun p => (m * p.1, m * p.2)) pts) c
  | rectangle b c => rectangle (scale_box m b) c
  end.

(** The proportions the composition keeps at every size: an ellipse has a
    square box, and a body has its corner radius half its width, rounded
    down, and is at least twice as tall as wide. *)
Definition well_proportioned (s : shape) : Prop :=
  match s with
  | ellipse (x0, y0, x1, y1) _ => x1 - x0 = y1 - y0
  | rounded_rectangle (x0, y0, x1, y1) r _ =>
      2 * r <= x1 - x0 <= 2 * r + 1 /\ 2 * (x1 - x0) <= y1 - y0
  | _ => True
  end.

(** ** A reference scan conversion

    One instance of [Pillow], with the shapes of plane geometry sampled at
    the pixel coordinates: it shows that the laws of the two classes can be
    met, and the statements below are run on it.  It is not the library's
    scan conversion, pixel for pixel. *)

Definition sq (z : Z) : Z := z * z.

(** The pixels of the box on the ellipse or within it, with the slack that
    fills a box of two pixels each way; a box without width or height has
    none. *)
Definition ideal_ellipse (b : box) (x y : Z) : bool :=
  let '(x0, y0, x1, y1) := b in
  let w := x1 - x0 in
  let h := y1 - y0 in
  in_box b x y && negb ((w =? 0) || (h =? 0)) &&
  (sq (2 * x - x0 - x1) * sq h + sq (2 * y - y0 - y1) * sq w
     <=? sq w * sq h + sq w + sq h).

(** When the corners take up the whole box the shape is the ellipse of the
    box; otherwise it is the box, less what lies further than [r] from the
    box shrunk by [r] on each side. *)
Definition ideal_rounded (b : box) (r x y : Z) : bool :=
  let '(x0, y0, x1, y1) := b in
  if (x1 - x0 - 1 <=? 2 * r) && (y1 - y0 - 1 <=? x1 - x0)
  then ideal_ellipse b x y
  else
    let dx := Z.max 0 (Z.max (x0 + r - x) (x - (x1 - r))) in
    let dy := Z.max 0 (Z.max (y0 + r - y) (y - (y1 - r))) in
    in_box b x y && (sq dx + sq dy <=? sq r).

Definition cross_product (a b p : Z * Z) : Z :=
  (b.1 - a.1) * (p.2 - a.2) - (b.2 - a.2) * (p.1 - a.1).

(** The edges of a closed polygon: each vertex with the next one, the last
    with the first. *)
Definition edges (pts : list (Z * Z)) : list ((Z * Z) * (Z * Z)) :=
  match pts with
  | [] => []
  | p :: rest => combine pts (rest ++ [p])
  end.

(** For a convex polygon: the pixels on one side of every edge. *)
Definition ideal_polygon (pts : list (Z * Z)) (x y : Z) : bool :=
  in_hull_box pts x y &&
  (forallb (fun e => 0 <=? cross_product e.1 e.2 (x, y)) (edges pts) ||
   forallb (fun e => cross_product e.1 e.2 (x, y) <=? 0) (edges pts)).

(** A stand-in for the encoder: the PNG signature, the two dimensions, and
    the samples row by row. *)
Definition byte_of (z : Z) : Byte.byte :=
  match Byte.of_N (Z.to_N (z mod 256)) with
  | Some b => b
  | None => Byte.x00
  end.

Definition raw_encode (img : Image) : list Byte.byte :=
  let w := Z.to_nat (im_width img) in
  let h := Z.to_nat (im_height img) in
  [Byte.x89; Byte.x50; Byte.x4e; Byte.x47; Byte.x0d; Byte.x0a; Byte.x1a; Byte.x0a]
  ++ [byte_of (im_width img); byte_of (im_height img)]
  ++ flat_map (fun j => flat_map (fun i =>
       let '(r, g, b, a) := im_px img (Z.of_nat i) (Z.of_nat j) in
       [byte_of r; byte_of g; byte_of b; byte_of a]) (seq 0 w)) (seq 0 h).

Lemma ideal_ellipse_in_box b x y :
  ideal_ellipse b x y = true -> in_box b x y = true.
Proof.
  destruct b as [[[x0 y0] x1] y1]. unfold ideal_ellipse.
  rewrite !andb_true_iff. tauto.
Qed.

Lemma ideal_rounded_in_box b r x y :
  ideal_rounded b r x y = true -> in_box b x y = true.
Proof.
  destruct b as [[[x0 y0] x1] y1]. unfold ideal_rounded.
  destruct (_ && _).
  - apply ideal_ellipse_in_box.
  - intros H. apply andb_prop in H. tauto.
Qed.

Lemma ideal_polygon_in_box pts x y :
  ideal_polygon pts x y = true -> in_hull_box pts x y = true.
Proof.
  unfold ideal_polygon. intros H. apply andb_prop in H. tauto.
Qed.

Lemma ideal_ellipse_centre x0 y0 x1 y1 :
  x0 + 2 <= x1 -> y0 + 2 <= y1 ->
  ideal_ellipse (x0, y0, x1, y1) ((x0 + x1) / 2) ((y0 + y1) / 2) = true.
Proof.
  intros Hx Hy. unfold ideal_ellipse, in_box, sq.
  pose proof (Z.div_mod (x0 + x1) 2 ltac:(lia)) as Ex.
  pose proof (Z.mod_pos_bound (x0 + x1) 2 ltac:(lia)) as Bx.
  pose proof (Z.div_mod (y0 + y1) 2 ltac:(lia)) as Ey.
  pose proof (Z.mod_pos_bound (y0 + y1) 2 ltac:(lia)) as By.
  set (cx := (x0 + x1) / 2) in *. set (cy := (y0 + y1) / 2) in *.
  clearbody cx cy.
  rewrite !andb_true_iff, negb_true_iff, orb_false_iff, !Z.eqb_neq, !Z.leb_le.
  repeat split; try lia.
  assert (Hu : 2 * cx - x0 - x1 = 0 \/ 2 * cx - x0 - x1 = -1) by lia.
  assert (Hv : 2 * cy - y0 - y1 = 0 \/ 2 * cy - y0 - y1 = -1) by lia.
  assert (Hw : 4 <= (x1 - x0) * (x1 - x0)) by nia.
  assert (Hh : 4 <= (y1 - y0) * (y1 - y0)) by nia.
  generalize dependent ((x1 - x0) * (x1 - x0)).
  generalize dependent ((y1 - y0) * (y1 - y0)).
  intros hh Hh ww Hw.
  destruct Hu as [-> | ->], Hv as [-> | ->]; nia.
Qed.

Lemma ideal_ellipse_corner x0 y0 x1 y1 :
  x0 + 4 <= x1 -> y0 + 4 <= y1 ->
  ideal_ellipse (x0, y0, x1, y1) x0 y0 = false.
Proof.
  intros Hx Hy. unfold ideal_ellipse, sq.
  apply andb_false_iff. right. apply Z.leb_gt.
  replace (2 * x0 - x0 - x1) with (- (x1 - x0)) by lia.
  replace (2 * y0 - y0 - y1) with (- (y1 - y0)) by lia.
  assert (Hw : 16 <= (x1 - x0) * (x1 - x0)) by nia.
  assert (Hh : 16 <= (y1 - y0) * (y1 - y0)) by nia.
  rewrite !Z.mul_opp_opp.
  generalize dependent ((x1 - x0) * (x1 - x0)).
  generalize dependent ((y1 - y0) * (y1 - y0)).
  intros hh Hh ww Hw. nia.
Qed.

Lemma ideal_ellipse_point x0 y0 x y :
  ideal_ellipse (x0, y0, x0, y0) x y = false.
Proof.
  unfold ideal_ellipse. rewrite Z.sub_diag. cbn [Z.eqb orb negb].
  now rewrite andb_false_r.
Qed.

Lemma ideal_rounded_point x0 y0 x y :
  ideal_rounded (x0, y0, x0, y0) 0 x y = false.
Proof.
  unfold ideal_rounded. rewrite !Z.sub_diag. cbn [Z.sub Z.opp Z.mul Z.leb Z.compare andb].
  apply ideal_ellipse_point.
Qed.

Lemma ideal_ellipse_two x0 y0 x y :
  in_box (x0, y0, x0 + 1, y0 + 1) x y = true ->
  ideal_ellipse (x0, y0, x0 + 1, y0 + 1) x y = true.
Proof.
  intros Hb. unfold ideal_ellipse. rewrite Hb.
  replace (x0 + 1 - x0) with 1 by lia. replace (y0 + 1 - y0) with 1 by lia.
  cbn [Z.eqb orb negb andb]. apply Z.leb_le.
  unfold in_box in Hb. rewrite !andb_true_iff, !Z.leb_le in Hb. unfold sq.
  assert (Hx : x = x0 \/ x = x0 + 1) by lia.
  assert (Hy : y = y0 \/ y = y0 + 1) by lia.
  destruct Hx as [-> | ->], Hy as [-> | ->]; lia.
Qed.

#[global] Instance ideal : Pillow := {|
  ellipse_px := ideal_ellipse;
  rounded_px := ideal_rounded;
  polygon_px := ideal_polygon;
  png_encode := raw_encode;
  ellipse_in_box := ideal_ellipse_in_box;
  rounded_in_box := ideal_rounded_in_box;
  polygon_in_box := ideal_polygon_in_box;
  ellipse_centre := ideal_ellipse_centre;
  ellipse_corner := ideal_ellipse_corner
|}.

#[global] Instance ideal_small : SmallShapes ideal := {|
  ellipse_point := ideal_ellipse_point;
  rounded_point := ideal_rounded_point;
  ellipse_two := ideal_ellipse_two
|}.

(** * Properties *)

(** ** Scaling *)

Lemma int_scale (k size : Z) :
  int (inject_Z k * (inject_Z size / 1024))%Q = scaled k size.
Proof.
  unfold int, scaled. cbn. now rewrite Z.mul_1_r.
Qed.

Lemma scaled_div (k size : Z) :
  0 <= k -> 0 <= size -> scaled k size = k * size / 1024.
Proof.
  intros Hk Hs. unfold scaled. apply Z.quot_div_nonneg; lia.
Qed.

(** [int_norm] rewrites every [int (k * scale)] of the goal into [scaled k
    size], [scale_norm] further into a floor division. *)
Ltac int_norm size :=
  repeat match goal with
  | |- context [int (Qmult (Qmake ?n 1) ?s)] =>
      rewrite (int_scale n size : int (Qmult (Qmake n 1) s) = _)
  end.

Ltac scale_norm size Hs := int_norm size; rewrite ?scaled_div by lia.

Ltac div_lia := Z.div_mod_to_equations; lia.

(** Equality of lists of shapes, coordinate by coordinate. *)
Ltac shapes_eq :=
  repeat first [ reflexivity | lia | div_lia | f_equal ].

(** ** Drawing *)

Section Facts.
Context `{P : Pillow}.

Lemma covers_shape_box s x y :
  covers s x y = true -> shape_box s x y = true.
Proof.
  destruct s; simpl; intros H;
    [ apply (ellipse_in_box _ _ _ H) | apply (rounded_in_box _ _ _ _ H)
    | apply (polygon_in_box _ _ _ H) | exact H ].
Qed.

Lemma draw_all_ok l : forall img,
  forallb shape_ok l = true -> draw_all img l = Ok (paint_all img l).
Proof.
  induction l as [|s l IH]; intros img H; simpl in *.
  - reflexivity.
  - apply andb_prop in H as [Hs Hl]. unfold draw. rewrite Hs. simpl.
    now apply IH.
Qed.

Lemma draw_all_refused l : forall img,
  forallb shape_ok l = false -> draw_all img l = Raise ValueError.
Proof.
  induction l as [|s l IH]; intros img H; simpl in *.
  - discriminate.
  - unfold draw. destruct (shape_ok s); simpl in *; auto.
Qed.

Lemma paint_all_dims l : forall img,
  im_mode (paint_all img l) = im_mode img /\
  im_width (paint_all img l) = im_width img /\
  im_height (paint_all img l) = im_height img.
Proof.
  induction l as [|s l IH]; intros img; simpl; auto.
  destruct (IH (paint img s)) as (? & ? & ?). auto.
Qed.

Lemma in_canvas_paint_all l img x y :
  in_canvas (paint_all img l) x y = in_canvas img x y.
Proof.
  unfold in_canvas. destruct (paint_all_dims l img) as (_ & -> & ->).
  reflexivity.
Qed.

(** A pixel of the canvas holds the fill of the last shape drawn over it,
    or what it held before when no shape covers it. *)
Lemma px_paint_all l : forall img x y,
  in_canvas img x y = true ->
  im_px (paint_all img l) x y =
    from_option fill_of (im_px img x y) (topmost l x y).
Proof.
  unfold paint_all.
  induction l as [|s l IH]; intros img x y Hc; simpl.
  - reflexivity.
  - rewrite IH by exact Hc.
    destruct (topmost l x y); simpl; [reflexivity|].
    rewrite Hc. simpl. now destruct (covers s x y).
Qed.

Lemma topmost_Some l x y t :
  topmost l x y = Some t -> In t l /\ covers t x y = true.
Proof.
  induction l as [|s l IH]; simpl; [discriminate|].
  destruct (topmost l x y) as [t'|].
  - intros [= ->]. destruct IH as [? ?]; auto.
  - destruct (covers s x y) eqn:E; [|discriminate].
    intros [= ->]. auto.
Qed.

Lemma topmost_drawn l x y :
  drawn l x y = true -> exists t, topmost l x y = Some t.
Proof.
  unfold drawn. induction l as [|s l IH]; simpl; [discriminate|].
  destruct (topmost l x y) as [t'|]; [eauto|].
  destruct (covers s x y); simpl; eauto.
Qed.

(** A pixel outside the bounding box of every shape is covered by none. *)
Lemma topmost_outside l x y :
  forallb (fun s => negb (shape_box s x y)) l = true -> topmost l x y = None.
Proof.
  induction l as [|s l IH]; simpl; [reflexivity|].
  intros H. apply andb_prop in H as [Hs Hl]. rewrite (IH Hl).
  destruct (covers s x y) eqn:E; [|reflexivity].
  apply covers_shape_box in E. rewrite E in Hs. discriminate.
Qed.

(** ** The renderer never has a call refused *)

Lemma icon_shapes_ok size :
  0 <= size -> forallb shape_ok (icon_shapes size) = true.
Proof.
  intros Hs. unfold icon_shapes. cbv zeta. scale_norm size Hs.
  cbn [forallb shape_ok box_ok length].
  rewrite !andb_true_iff, !Z.leb_le.
  repeat split; div_lia.
Qed.

(** [Image.new] creates the canvas exactly for the sides from 0 to
    [INT_MAX]. *)
Lemma Image_new_ok size :
  0 <= size <= 2147483647 ->
  Image_new "RGBA" (size, size) (0, 0, 0, 0) = Ok (blank size).
Proof.
  intros Hs. unfold Image_new, INT_MAX. cbn [fst snd].
  replace (size <? 0) with false by (symmetry; apply Z.ltb_ge; lia).
  replace (2147483647 <? size) with false by (symmetry; apply Z.ltb_ge; lia).
  reflexivity.
Qed.

Lemma Image_new_inv size canvas :
  Image_new "RGBA" (size, size) (0, 0, 0, 0) = Ok canvas ->
  0 <= size <= 2147483647.
Proof.
  unfold Image_new, INT_MAX. cbn [fst snd].
  destruct (Z.ltb_spec size 0); cbn [orb]; [discriminate |].
  destruct (Z.ltb_spec 2147483647 size); cbn [orb]; [discriminate |].
  intros _. lia.
Qed.

Lemma create_ok size :
  0 <= size <= 2147483647 ->
  create_family_health_icon size = Ok (icon_image size).
Proof.
  intros Hs. unfold create_family_health_icon.
  rewrite (Image_new_ok size Hs). cbn [mbind result_bind].
  apply draw_all_ok, icon_shapes_ok. lia.
Qed.

Lemma icon_image_dims size :
  im_mode (icon_image size) = "RGBA" /\
  im_width (icon_image size) = size /\
  im_height (icon_image size) = size.
Proof. unfold icon_image. apply paint_all_dims. Qed.

Lemma in_canvas_icon size x y :
  in_canvas (icon_image size) x y = in_canvas (blank size) x y.
Proof. apply in_canvas_paint_all. Qed.

Lemma getpixel_icon size x y :
  in_canvas (blank size) x y = true ->
  getpixel (icon_image size) x y =
    Ok (from_option fill_of transparent (topmost (icon_shapes size) x y)).
Proof.
  intros Hc.
  assert (Hx : (x <? 0) = false /\ (y <? 0) = false).
  { unfold in_canvas in Hc. rewrite !andb_true_iff, !Z.leb_le in Hc.
    split; apply Z.ltb_ge; lia. }
  destruct Hx as [Hx Hy]. unfold getpixel. rewrite Hx, Hy. cbv zeta.
  rewrite in_canvas_icon, Hc. f_equal.
  exact (px_paint_all (icon_shapes size) (blank size) x y Hc).
Qed.

End Facts.

(** ** The colours of the composition *)

Lemma icon_fills size s :
  In s (icon_shapes size) -> In (fill_of s) [blue; white; red].
Proof.
  unfold icon_shapes. cbv zeta. intros H.
  repeat (destruct H as [<- | H]; [simpl; auto 6 |]).
  destruct H.
Qed.

Lemma alpha_fill c :
  In c [blue; white; red] -> (alpha c = 255 <-> c <> white).
Proof.
  intros [<- | [<- | [<- | []]]]; vm_compute; split; congruence.
Qed.

Lemma in_canvas_blank size x y :
  0 <= x < size -> 0 <= y < size -> in_canvas (blank size) x y = true.
Proof.
  intros Hx Hy. unfold in_canvas, blank; simpl.
  rewrite !andb_true_iff, !Z.leb_le, !Z.ltb_lt. lia.
Qed.

(** The value of a pixel of the canvas, for every scan conversion. *)
Lemma icon_pixel `{P : Pillow} size x y :
  0 <= size <= 2147483647 -> in_canvas (blank size) x y = true ->
  (create_family_health_icon size ≫= fun img => getpixel img x y) =
    Ok (from_option fill_of transparent (topmost (icon_shapes size) x y)).
Proof.
  intros Hs Hc. rewrite create_ok by exact Hs.
  cbn [mbind result_bind]. now apply getpixel_icon.
Qed.

Lemma create_family_health_icon_dims_aux `{P : Pillow} (n : Z) :
  0 <= n <= 2147483647 ->
  exists img, create_family_health_icon n = Ok img /\
    im_mode img = "RGBA" /\ im_width img = n /\ im_height img = n.
Proof.
  intros Hn. exists (icon_image n). split.
  - now apply create_ok.
  - apply icon_image_dims.
Qed.

(** ** C1 *)

(** C1, refuted as stated: 2147483648 is a positive integer, and at that
    size [Image.new] refuses the canvas with [OverflowError], so nothing is
    returned. *)
Lemma create_family_health_icon_too_large :
  0 < 2147483648 /\
  create_family_health_icon (P := ideal) 2147483648 = Raise OverflowError.
Proof. split; [lia | reflexivity]. Qed.

(** C1, amended. For every positive integer size [n] for which [Image.new]
    creates the canvas, [create_family_health_icon n] returns an RGBA image
    of exactly [n] by [n] pixels: no drawing call is refused. *)
Theorem create_family_health_icon_dims `{P : Pillow} (n : Z) (canvas : Image) :
  0 < n ->
  Image_new "RGBA" (n, n) (0, 0, 0, 0) = Ok canvas ->
  exists img, create_family_health_icon n = Ok img /\
    im_mode img = "RGBA" /\ im_width img = n /\ im_height img = n.
Proof.
  intros Hn Hc. apply create_family_health_icon_dims_aux.
  apply (Image_new_inv n canvas Hc).
Qed.

Lemma create_family_health_icon_dims_20 :
  0 < 20 /\
  Image_new "RGBA" (20, 20) (0, 0, 0, 0) = Ok (blank 20) /\
  exists img, create_family_health_icon (P := ideal) 20 = Ok img /\
    im_mode img = "RGBA" /\ im_width img = 20 /\ im_height img = 20.
Proof.
  split; [lia | split; [reflexivity |]].
  apply (create_family_health_icon_dims (P := ideal) 20 (blank 20));
    [lia | reflexivity].
Defined.

(** ** C6 *)

(** C6. For every positive size, every pixel of the returned image holds one
    of the four values (0,0,0,0), (74,144,226,255), (255,255,255,230) and
    (255,107,107,255); the image is returned whenever [Image.new] creates
    the canvas. *)
Theorem icon_palette_closed `{P : Pillow} (size : Z) (canvas : Image) :
  0 < size ->
  Image_new "RGBA" (size, size) (0, 0, 0, 0) = Ok canvas ->
  exists img, create_family_health_icon size = Ok img /\
    forall x y, 0 <= x < im_width img -> 0 <= y < im_height img ->
      exists c, getpixel img x y = Ok c /\ In c palette.
Proof.
  intros Hs Hn. apply Image_new_inv in Hn.
  exists (icon_image size). split; [apply create_ok; lia|].
  destruct (icon_image_dims size) as (_ & -> & ->).
  intros x y Hx Hy.
  assert (Hc : in_canvas (blank size) x y = true).
  { unfold in_canvas, blank; simpl.
    rewrite !andb_true_iff, !Z.leb_le, !Z.ltb_lt. lia. }
  rewrite (getpixel_icon size x y Hc). eexists; split; [reflexivity|].
  destruct (topmost (icon_shapes size) x y) as [t|] eqn:E; simpl.
  - right. apply (icon_fills size). now apply topmost_Some in E.
  - now left.
Qed.

Lemma icon_palette_closed_20 :
  0 < 20 /\
  Image_new "RGBA" (20, 20) (0, 0, 0, 0) = Ok (blank 20) /\
  exists img, create_family_health_icon (P := ideal) 20 = Ok img /\
    forall x y, 0 <= x < im_width img -> 0 <= y < im_height img ->
      exists c, getpixel img x y = Ok c /\ In c palette.
Proof.
  split; [lia | split; [reflexivity |]].
  apply (icon_palette_closed (P := ideal) 20 (blank 20)); [lia | reflexivity].
Defined.

(** ** C3 *)

(** In the 1024 image the pixel (512, 550) lies on the horizontal bar of the
    cross, the last shape drawn, and so holds the translucent white. *)
Lemma cross_pixel_white `{P : Pillow} :
  drawn (icon_shapes 1024) 512 550 = true /\
  (create_family_health_icon 1024 ≫= fun img => getpixel img 512 550) =
    Ok (255, 255, 255, 230).
Proof.
  split.
  - unfold drawn. rewrite existsb_exists.
    exists (rectangle (480, 540, 544, 564) white). split.
    + vm_compute. auto 20.
    + reflexivity.
  - rewrite icon_pixel by (lia || reflexivity). vm_compute. reflexivity.
Qed.

(** C3, refuted as stated: a pixel covered by a drawn shape whose alpha is
    230, not 255. *)
Lemma drawn_pixel_not_opaque :
  drawn (P := ideal) (icon_shapes 1024) 512 550 = true /\
  (create_family_health_icon (P := ideal) 1024 ≫= fun img => getpixel img 512 550)
    = Ok (255, 255, 255, 230) /\
  alpha (255, 255, 255, 230) <> 255.
Proof.
  destruct (cross_pixel_white (P := ideal)) as [Hd Hp].
  split; [exact Hd | split; [exact Hp | vm_compute; discriminate]].
Qed.

(** C3, amended. For every positive size, every pixel of the returned image
    that some drawn shape covers holds the fill of the last shape drawn over
    it: it is fully opaque (alpha 255) when that fill is the blue or the
    red, and has alpha 230 when it is the translucent white.  The image is
    returned whenever [Image.new] creates the canvas. *)
Theorem drawn_pixels_alpha `{P : Pillow} (size : Z) (canvas : Image) :
  0 < size ->
  Image_new "RGBA" (size, size) (0, 0, 0, 0) = Ok canvas ->
  exists img, create_family_health_icon size = Ok img /\
    forall x y, in_canvas img x y = true ->
      drawn (icon_shapes size) x y = true ->
      exists s, topmost (icon_shapes size) x y = Some s /\
        getpixel img x y = Ok (fill_of s) /\
        In (fill_of s) [blue; white; red] /\
        (fill_of s = white -> alpha (fill_of s) = 230) /\
        (fill_of s <> white -> alpha (fill_of s) = 255).
Proof.
  intros Hs Hn. apply Image_new_inv in Hn.
  exists (icon_image size). split; [apply create_ok; lia|].
  intros x y Hc Hd. rewrite in_canvas_icon in Hc.
  destruct (topmost_drawn _ _ _ Hd) as [s Es]. exists s.
  assert (Hf : In (fill_of s) [blue; white; red]).
  { apply (icon_fills size). now apply topmost_Some in Es. }
  repeat split; auto.
  - now rewrite (getpixel_icon size x y Hc), Es.
  - now intros ->.
  - now apply alpha_fill.
Qed.

Lemma drawn_pixels_alpha_1024 :
  0 < 1024 /\
  Image_new "RGBA" (1024, 1024) (0, 0, 0, 0) = Ok (blank 1024) /\
  exists img, create_family_health_icon (P := ideal) 1024 = Ok img /\
    forall x y, in_canvas img x y = true ->
      drawn (icon_shapes 1024) x y = true ->
      exists s, topmost (icon_shapes 1024) x y = Some s /\
        getpixel img x y = Ok (fill_of s) /\
        In (fill_of s) [blue; white; red] /\
        (fill_of s = white -> alpha (fill_of s) = 230) /\
        (fill_of s <> white -> alpha (fill_of s) = 255).
Proof.
  split; [lia | split; [reflexivity |]].
  apply (drawn_pixels_alpha (P := ideal) 1024 (blank 1024)); [lia | reflexivity].
Defined.

(** ** C8 *)

(** C8. [create_family_health_icon 1] does not raise: at size 1 every
    coordinate the calls are given is 0 or 1, every call is accepted, and a
    1 by 1 image is returned. *)
Theorem create_family_health_icon_1 `{P : Pillow} :
  Forall (fun s => Forall (fun z => z = 0 \/ z = 1) (coords s)) (icon_shapes 1) /\
  Forall (fun s => exists img', draw (blank 1) s = Ok img') (icon_shapes 1) /\
  exists img, create_family_health_icon 1 = Ok img /\
    im_width img = 1 /\ im_height img = 1.
Proof.
  split; [|split].
  - vm_compute.
    repeat first [ apply List.Forall_nil | apply List.Forall_cons
                 | left; reflexivity | right; reflexivity ].
  - assert (H : forallb shape_ok (icon_shapes 1) = true) by (vm_compute; reflexivity).
    rewrite forallb_forall in H. apply List.Forall_forall. intros s Hs.
    unfold draw. rewrite (H s Hs). eauto.
  - destruct (create_family_health_icon_dims_aux 1) as (img & E & _ & Hw & Hh);
      [lia | eauto].
Qed.

(** ** C4 *)

Lemma drawn_outside `{P : Pillow} l x y :
  forallb (fun s => negb (shape_box s x y)) l = true -> drawn l x y = false.
Proof.
  intros H. destruct (drawn l x y) eqn:E; [|reflexivity].
  destruct (topmost_drawn _ _ _ E) as [t Et].
  rewrite (topmost_outside _ _ _ H) in Et. discriminate.
Qed.

(** C4, refuted as stated: in the 1024 image no shape of the heart or of
    the cross covers the pixel (512, 512), and its colour is the background
    blue. *)
Lemma centre_pixel_is_background :
  drawn (P := ideal) (heart 1024 ++ cross 1024) 512 512 = false /\
  (create_family_health_icon (P := ideal) 1024 ≫= fun img => getpixel img 512 512)
    = Ok (74, 144, 226, 255).
Proof.
  split.
  - vm_compute. reflexivity.
  - rewrite icon_pixel by (lia || reflexivity). vm_compute. reflexivity.
Qed.

(** C4, amended. The pixel (512, 512) of the 1024 image lies outside the
    bounding box of every shape of the heart and of the cross (the cross
    spans the rows 520 to 600, the heart the rows 590 to 710), indeed of
    every shape but the background disc, which covers it: its colour is the
    background blue (74,144,226,255). *)
Theorem centre_pixel_1024 `{P : Pillow} :
  forallb (fun s => negb (shape_box s 512 512)) (heart 1024 ++ cross 1024) = true /\
  drawn (heart 1024 ++ cross 1024) 512 512 = false /\
  topmost (icon_shapes 1024) 512 512 = Some (ellipse (0, 0, 1024, 1024) blue) /\
  (create_family_health_icon 1024 ≫= fun img => getpixel img 512 512)
    = Ok (74, 144, 226, 255).
Proof.
  assert (Hb : forallb (fun s => negb (shape_box s 512 512))
                 (heart 1024 ++ cross 1024) = true) by (vm_compute; reflexivity).
  assert (Ht : topmost (icon_shapes 1024) 512 512
               = Some (ellipse (0, 0, 1024, 1024) blue)).
  { replace (icon_shapes 1024)
      with (ellipse (0, 0, 1024, 1024) blue :: tl (icon_shapes 1024))
      by (vm_compute; reflexivity).
    cbn [topmost]. rewrite topmost_outside by (vm_compute; reflexivity).
    cbn [covers].
    now rewrite (ellipse_centre 0 0 1024 1024 ltac:(lia) ltac:(lia)
                 : ellipse_px (0, 0, 1024, 1024) 512 512 = true). }
  split; [exact Hb | split; [now apply drawn_outside | split; [exact Ht|]]].
  rewrite icon_pixel by (lia || reflexivity). now rewrite Ht.
Qed.

(** ** C10 *)

(** From size 3 on, the origin lies outside the bounding box of every shape
    but the background disc. *)
Lemma origin_outside size :
  3 <= size ->
  forallb (fun s => negb (shape_box s 0 0)) (tl (icon_shapes size)) = true.
Proof.
  intros Hs. unfold icon_shapes. cbv zeta. scale_norm size Hs.
  cbn [tl forallb shape_box in_box]. unfold in_hull_box.
  cbn [existsb fst snd]. rewrite ?orb_false_r.
  repeat (apply andb_true_intro; split); try reflexivity;
    apply negb_true_iff, not_true_is_false;
    rewrite ?andb_true_iff, ?orb_true_iff, ?Z.leb_le; div_lia.
Qed.

Lemma point_shape_covers `{P : Pillow} `{!SmallShapes P} s x y :
  point_shape s = true -> covers s x y = false.
Proof.
  destruct s as [[[[x0 y0] x1] y1] c | [[[x0 y0] x1] y1] r c | pts c | b c];
    cbn [point_shape covers]; try discriminate.
  - rewrite andb_true_iff, !Z.eqb_eq. intros [<- <-]. apply ellipse_point.
  - rewrite !andb_true_iff, !Z.eqb_eq. intros [[<- <-] ->].
    apply rounded_point.
Qed.

(** A pixel is covered by no shape of a list when each shape either has the
    pixel outside its bounding box or is a single point. *)
Lemma topmost_idle `{P : Pillow} `{!SmallShapes P} l x y :
  forallb (fun s => negb (shape_box s x y) || point_shape s) l = true ->
  topmost l x y = None.
Proof.
  induction l as [|s l IH]; simpl; [reflexivity|].
  intros H. apply andb_prop in H as [Hs Hl]. rewrite (IH Hl).
  destruct (covers s x y) eqn:E; [|reflexivity].
  apply orb_prop in Hs as [Hs | Hs].
  - apply covers_shape_box in E. rewrite E in Hs. discriminate.
  - rewrite (point_shape_covers s x y Hs) in E. discriminate.
Qed.

(** Whatever the size, no shape but the background disc paints the corner
    pixel. *)
Lemma origin_idle size :
  2 <= size ->
  forallb (fun s => negb (shape_box s 0 0) || point_shape s)
    (tl (icon_shapes size)) = true.
Proof.
  intros Hs. destruct (Z.eq_dec size 2) as [-> | Hn].
  - vm_compute. reflexivity.
  - pose proof (origin_outside size ltac:(lia)) as Ho.
    rewrite forallb_forall in *. intros s Hin.
    now rewrite (Ho s Hin).
Qed.

(** C10. For size 1024, and for every size at which the background disc as
    drawn leaves the corner pixel out, the pixel (0, 0) of the returned
    image is the transparent (0,0,0,0): no other shape paints the corner.
    (At size 1 the disc covers the only pixel; at size 2 the shapes at the
    origin are single points and paint nothing.) *)
Theorem corner_pixel_transparent `{P : Pillow} `{!SmallShapes P}
    (size : Z) (canvas : Image) :
  0 < size ->
  Image_new "RGBA" (size, size) (0, 0, 0, 0) = Ok canvas ->
  size = 1024 \/ ellipse_px (0, 0, size, size) 0 0 = false ->
  (create_family_health_icon size ≫= fun img => getpixel img 0 0)
    = Ok (0, 0, 0, 0).
Proof.
  intros Hs Hn Hd. apply Image_new_inv in Hn.
  assert (Hbg : ellipse_px (0, 0, size, size) 0 0 = false).
  { destruct Hd as [-> | H]; [apply ellipse_corner; lia | exact H]. }
  destruct (Z.eq_dec size 1) as [-> | H1].
  { pose proof (ellipse_two 0 0 0 0 eq_refl) as Ht.
    change (ellipse_px (0, 0, 1, 1) 0 0 = true) in Ht. congruence. }
  rewrite icon_pixel by (try lia; apply in_canvas_blank; lia).
  pose proof (origin_idle size ltac:(lia)) as Ho.
  replace (icon_shapes size)
    with (ellipse (0, 0, size, size) blue :: tl (icon_shapes size))
    by reflexivity.
  cbn [topmost]. rewrite (topmost_idle _ _ _ Ho).
  cbn [covers]. now rewrite Hbg.
Qed.

Lemma corner_pixel_transparent_1024_and_2 :
  (0 < 1024 /\
   Image_new "RGBA" (1024, 1024) (0, 0, 0, 0) = Ok (blank 1024) /\
   (create_family_health_icon (P := ideal) 1024 ≫= fun img => getpixel img 0 0)
     = Ok (0, 0, 0, 0)) /\
  (0 < 2 /\
   Image_new "RGBA" (2, 2) (0, 0, 0, 0) = Ok (blank 2) /\
   ellipse_px (Pillow := ideal) (0, 0, 2, 2) 0 0 = false /\
   (create_family_health_icon (P := ideal) 2 ≫= fun img => getpixel img 0 0)
     = Ok (0, 0, 0, 0)).
Proof.
  split.
  - split; [lia | split; [reflexivity |]].
    apply (corner_pixel_transparent (P := ideal) 1024 (blank 1024));
      [lia | reflexivity | left; reflexivity].
  - split; [lia | split; [reflexivity | split; [reflexivity |]]].
    apply (corner_pixel_transparent (P := ideal) 2 (blank 2));
      [lia | reflexivity | right; reflexivity].
Defined.

(** ** C2 *)

(** C2, refuted as stated: at size 1024 the two ellipses of the heart are
    inscribed in the boxes (452,590)-(512,650) and (512,590)-(572,650),
    while discs of radius 60 centred at (452,590) and (572,590) would have
    the boxes (392,530)-(512,650) and (512,530)-(632,650). *)
Lemma heart_not_as_specified :
  heart 1024 =
    [ ellipse (452, 590, 512, 650) red;
      ellipse (512, 590, 572, 650) red;
      polygon [(512, 650); (452, 710); (572, 710)] red ] /\
  spec_heart 1024 =
    [ ellipse (392, 530, 512, 650) red;
      ellipse (512, 530, 632, 650) red;
      polygon [(512, 650); (452, 710); (572, 710)] red ] /\
  heart 1024 <> spec_heart 1024.
Proof.
  split; [vm_compute; reflexivity | split; [vm_compute; reflexivity |]].
  vm_compute. discriminate.
Qed.

(** C2, amended. For every positive size, with [heart_x = int(512 s)],
    [heart_y = int(650 s)] and [heart_size = int(60 s)], the heart is two
    ellipses inscribed in the boxes from [(heart_x - heart_size, heart_y -
    heart_size)] to [(heart_x, heart_y)] and from [(heart_x, heart_y -
    heart_size)] to [(heart_x + heart_size, heart_y)], that is discs of
    diameter [heart_size] (of radius [r] about [(heart_x - r, heart_y - r)]
    and [(heart_x + r, heart_y - r)] when [heart_size = 2 r]), and the
    triangle [(heart_x, heart_y)], [(heart_x - heart_size, heart_y +
    heart_size)], [(heart_x + heart_size, heart_y + heart_size)], all
    filled with the opaque red; no other shape is red. *)
Theorem heart_shapes (size : Z) :
  0 < size ->
  let heart_x := scaled 512 size in
  let heart_y := scaled 650 size in
  let heart_size := scaled 60 size in
  let triangle :=
    polygon [(heart_x, heart_y);
             (heart_x - heart_size, heart_y + heart_size);
             (heart_x + heart_size, heart_y + heart_size)] (255, 107, 107, 255) in
  heart size =
    [ ellipse (heart_x - heart_size, heart_y - heart_size, heart_x, heart_y)
              (255, 107, 107, 255);
      ellipse (heart_x, heart_y - heart_size, heart_x + heart_size, heart_y)
              (255, 107, 107, 255);
      triangle ] /\
  (forall r, heart_size = 2 * r ->
     heart size =
       [ disc (heart_x - r) (heart_y - r) r (255, 107, 107, 255);
         disc (heart_x + r) (heart_y - r) r (255, 107, 107, 255);
         triangle ]) /\
  filter (fun s => fill_of s = red) (icon_shapes size) = heart size.
Proof.
  intros Hs heart_x heart_y heart_size triangle.
  assert (E : heart size =
    [ ellipse (heart_x - heart_size, heart_y - heart_size, heart_x, heart_y) red;
      ellipse (heart_x, heart_y - heart_size, heart_x + heart_size, heart_y) red;
      triangle ]).
  { unfold heart, icon_shapes. cbv zeta. cbn [skipn firstn].
    int_norm size. reflexivity. }
  split; [exact E | split].
  - intros r Hr. rewrite E. unfold disc. rewrite Hr. shapes_eq.
  - unfold heart, icon_shapes. cbv zeta. reflexivity.
Qed.

Lemma heart_shapes_1024 :
  0 < 1024 /\
  heart 1024 =
    [ disc 482 620 30 (255, 107, 107, 255);
      disc 542 620 30 (255, 107, 107, 255);
      polygon [(512, 650); (452, 710); (572, 710)] (255, 107, 107, 255) ].
Proof.
  split; [lia|].
  exact (proj1 (proj2 (heart_shapes 1024 ltac:(lia))) 30 eq_refl).
Defined.

(** ** C5 *)

(** C5, refuted as stated: 20 is a size of the list, and at size 20 the
    vertical bar ends at column 9, not at [int(524 * 20 / 1024) = 10]. *)
Lemma cross_not_as_specified :
  In 20 (map (fun e => int e.1) icon_sizes) /\
  cross 20 =
    [ rectangle (9, 10, 9, 11) white; rectangle (9, 10, 10, 10) white ] /\
  spec_cross 20 =
    [ rectangle (9, 10, 10, 11) white; rectangle (9, 10, 10, 11) white ] /\
  cross 20 <> spec_cross 20.
Proof.
  split; [vm_compute; auto |].
  split; [vm_compute; reflexivity | split; [vm_compute; reflexivity |]].
  vm_compute. discriminate.
Qed.

(** C5, amended. For every positive size, with [X = int(500 s)],
    [Y = int(520 s)] and [t = int(20 s)], the cross is the rectangle from
    [(X, Y)] to [(X + int(24 s), Y + int(80 s))] and the rectangle from
    [(X - t, Y + t)] to [(X + int(64 s) - t, Y + t + int(24 s))], both
    filled with the translucent white (255,255,255,230).  A corner is a sum
    of truncated terms: it lies within 2 of the truncated product the
    specification names (never above it by more than 1), and equals it when
    the size is a multiple of 256, as 1024 is. *)
Theorem cross_shapes (size : Z) :
  0 < size ->
  let X := scaled 500 size in
  let Y := scaled 520 size in
  let t := scaled 20 size in
  cross size =
    [ rectangle (X, Y, X + scaled 24 size, Y + scaled 80 size)
                (255, 255, 255, 230);
      rectangle (X - t, Y + t, X + scaled 64 size - t, Y + t + scaled 24 size)
                (255, 255, 255, 230) ] /\
  Forall2 (fun a b => -2 <= a - b <= 1)
    (flat_map coords (cross size)) (flat_map coords (spec_cross size)) /\
  (size mod 256 = 0 -> cross size = spec_cross size).
Proof.
  intros Hs X Y t.
  assert (E : cross size =
    [ rectangle (X, Y, X + scaled 24 size, Y + scaled 80 size) white;
      rectangle (X - t, Y + t, X + scaled 64 size - t,
                 Y + t + scaled 24 size) white ]).
  { unfold cross, icon_shapes. cbv zeta. cbn [skipn].
    int_norm size. reflexivity. }
  split; [exact E | rewrite E; subst X Y t; split].
  - unfold spec_cross. cbn [flat_map coords app].
    rewrite !scaled_div by lia.
    repeat (apply Forall2_cons_2; [div_lia|]). apply Forall2_nil_2.
  - intros Hm. unfold spec_cross. rewrite !scaled_div by lia. shapes_eq.
Qed.

Lemma cross_shapes_1024 :
  0 < 1024 /\ 1024 mod 256 = 0 /\
  cross 1024 =
    [ rectangle (500, 520, 524, 600) (255, 255, 255, 230);
      rectangle (480, 540, 544, 564) (255, 255, 255, 230) ].
Proof.
  split; [lia | split; [reflexivity |]].
  exact (proj2 (proj2 (cross_shapes 1024 ltac:(lia))) eq_refl).
Defined.

(** ** The batch writer *)

Section Batch.
Context `{P : Pillow}.

Lemma save_ok fs img filename :
  dirname (icon_path filename) = output_dir ->
  output_dir ∈ dirs fs ->
  save fs img (icon_path filename) =
    Ok {| dirs := dirs fs;
          files := <[icon_path filename := png_encode img]> (files fs) |}.
Proof.
  intros Hd Ho. unfold save. rewrite Hd. now rewrite decide_True.
Qed.

Lemma generate_ok l : forall fs,
  output_dir ∈ dirs fs ->
  Forall (fun e => 0 <= int e.1 <= 2147483647 /\
                   dirname (icon_path e.2) = output_dir) l ->
  generate fs l = Ok {| dirs := dirs fs; files := written (files fs) l |}.
Proof.
  induction l as [|[size filename] l IH]; intros fs Ho Hl.
  - now destruct fs.
  - apply Forall_cons_1 in Hl as [[Hs Hd] Hl]. cbn [generate fst snd] in *.
    rewrite create_ok by exact Hs. cbn [mbind result_bind].
    fold (icon_path filename). rewrite save_ok by assumption.
    cbn [mbind result_bind]. now rewrite IH.
Qed.

Lemma icon_sizes_ok :
  Forall (fun e => 0 <= int e.1 <= 2147483647 /\
                   dirname (icon_path e.2) = output_dir)
    icon_sizes.
Proof.
  unfold icon_sizes.
  repeat (apply List.Forall_cons;
          [split; [split; vm_compute; discriminate | vm_compute; reflexivity] |]).
  apply List.Forall_nil.
Qed.

Lemma main_ok fs :
  output_dir ∈ dirs fs ->
  main fs = Ok {| dirs := dirs fs; files := written (files fs) icon_sizes |}.
Proof. intros Ho. apply generate_ok; [exact Ho | exact icon_sizes_ok]. Qed.

(** A run that ends normally found the output directory. *)
Lemma generate_inv e l fs fs' :
  0 <= int e.1 <= 2147483647 -> dirname (icon_path e.2) = output_dir ->
  generate fs (e :: l) = Ok fs' -> output_dir ∈ dirs fs.
Proof.
  destruct e as [size filename]. cbn [fst snd]. intros Hs Hd.
  cbn [generate]. rewrite (create_ok (int size) Hs).
  cbn [mbind result_bind]. unfold save. fold (icon_path filename).
  rewrite Hd. destruct (decide (output_dir ∈ dirs fs)); [auto | discriminate].
Qed.

Lemma main_inv fs fs' :
  main fs = Ok fs' ->
  output_dir ∈ dirs fs /\
  fs' = {| dirs := dirs fs; files := written (files fs) icon_sizes |}.
Proof.
  intros H.
  assert (Ho : output_dir ∈ dirs fs).
  { pose proof icon_sizes_ok as Hl. unfold main, icon_sizes in *.
    apply Forall_cons_1 in Hl as [[Hs Hd] _].
    exact (generate_inv _ _ _ _ Hs Hd H). }
  rewrite (main_ok fs Ho) in H. injection H as <-. auto.
Qed.

Lemma written_other l : forall m k,
  ~ In k (map (fun e => icon_path e.2) l) -> written m l !! k = m !! k.
Proof.
  unfold written.
  induction l as [|e l IH]; intros m k Hk; simpl in *; [reflexivity|].
  rewrite IH by tauto. apply lookup_insert_ne. tauto.
Qed.

Lemma written_entry l : forall m e,
  List.NoDup (map (fun e => icon_path e.2) l) -> In e l ->
  written m l !! icon_path e.2 = Some (png_encode (icon_image (int e.1))).
Proof.
  induction l as [|e' l IH]; intros m e Hn He; [destruct He|].
  simpl in Hn. apply List.NoDup_cons_iff in Hn as [Hk Hn].
  destruct He as [-> | He].
  - change (written m (e :: l)) with
      (written (<[icon_path e.2 := png_encode (icon_image (int e.1))]> m) l).
    rewrite written_other by exact Hk. apply lookup_insert_eq.
  - now apply (IH _ e Hn).
Qed.

Lemma icon_paths_nodup :
  List.NoDup (map (fun e => icon_path e.2) icon_sizes).
Proof.
  vm_compute.
  repeat (apply List.NoDup_cons;
          [simpl; intros H;
           repeat (destruct H as [H | H]; [discriminate H |]); destruct H |]).
  apply List.NoDup_nil.
Qed.

End Batch.

(** ** C9 *)

(** C9. The entry of size 83.5 has its size truncated to 83 before the
    renderer is called, so the saved image is 83 by 83 pixels, and the file
    keeps the name icon_83.5.png (no icon_83.png is written). *)
Theorem icon_83_5_truncated `{P : Pillow} (fs : filesystem) :
  output_dir ∈ dirs fs ->
  In (83.5%Q, "icon_83.5.png") icon_sizes /\
  int 83.5%Q = 83 /\
  exists fs' img,
    main fs = Ok fs' /\
    create_family_health_icon (int 83.5%Q) = Ok img /\
    im_width img = 83 /\ im_height img = 83 /\
    files fs' !! "RecipeApp/Assets.xcassets/AppIcon.appiconset/icon_83.5.png"
      = Some (png_encode img) /\
    files fs' !! "RecipeApp/Assets.xcassets/AppIcon.appiconset/icon_83.png"
      = files fs !! "RecipeApp/Assets.xcassets/AppIcon.appiconset/icon_83.png".
Proof.
  intros Ho.
  assert (Hin : In (83.5%Q, "icon_83.5.png") icon_sizes)
    by (unfold icon_sizes; simpl; auto 10).
  split; [exact Hin | split; [reflexivity |]].
  exists {| dirs := dirs fs; files := written (files fs) icon_sizes |},
    (icon_image 83).
  split; [now apply main_ok | split; [now apply create_ok |]].
  destruct (icon_image_dims 83) as (_ & Hw & Hh).
  split; [exact Hw | split; [exact Hh | split]]; cbn [files].
  - exact (written_entry icon_sizes (files fs) _ icon_paths_nodup Hin).
  - apply written_other. vm_compute. intros H.
    repeat (destruct H as [H | H]; [discriminate H |]). destruct H.
Qed.

Lemma icon_83_5_truncated_fresh :
  output_dir ∈ dirs fresh_disk /\
  exists fs' img,
    main (P := ideal) fresh_disk = Ok fs' /\
    create_family_health_icon (P := ideal) (int 83.5%Q) = Ok img /\
    im_width img = 83 /\ im_height img = 83 /\
    files fs' !! "RecipeApp/Assets.xcassets/AppIcon.appiconset/icon_83.5.png"
      = Some (png_encode img) /\
    files fs' !! "RecipeApp/Assets.xcassets/AppIcon.appiconset/icon_83.png"
      = files fresh_disk !! "RecipeApp/Assets.xcassets/AppIcon.appiconset/icon_83.png".
Proof.
  assert (Ho : output_dir ∈ dirs fresh_disk)
    by (cbn [dirs fresh_disk stale_disk]; apply elem_of_singleton_2; reflexivity).
  split; [exact Ho |].
  exact (proj2 (proj2 (icon_83_5_truncated (P := ideal) fresh_disk Ho))).
Defined.

(** * Further properties of the renderer *)

Lemma topmost_app `{P : Pillow} l1 l2 x y :
  topmost (l1 ++ l2) x y =
    match topmost l2 x y with
    | Some t => Some t
    | None => topmost l1 x y
    end.
Proof.
  induction l1 as [|s l1 IH]; simpl.
  - now destruct (topmost l2 x y).
  - rewrite IH. now destruct (topmost l2 x y).
Qed.

Lemma topmost_None_drawn `{P : Pillow} l x y :
  topmost l x y = None <-> drawn l x y = false.
Proof.
  split; intros H.
  - destruct (drawn l x y) eqn:E; [|reflexivity].
    destruct (topmost_drawn _ _ _ E) as [t Et]. congruence.
  - destruct (topmost l x y) as [t|] eqn:E; [|reflexivity].
    apply topmost_Some in E as [Hin Hc].
    assert (Hd : drawn l x y = true)
      by (unfold drawn; rewrite existsb_exists; eauto).
    congruence.
Qed.

(** X1. When [create_family_health_icon] raises, it is [Image.new] that
    raised, with that exception: at every size for which the canvas is
    created, 0 included, no drawing call is refused. *)
Theorem create_family_health_icon_raises_at_new `{P : Pillow}
    (size : Z) (e : exn) :
  create_family_health_icon size = Raise e ->
  Image_new "RGBA" (size, size) (0, 0, 0, 0) = Raise e.
Proof.
  unfold create_family_health_icon.
  destruct (Image_new "RGBA" (size, size) (0, 0, 0, 0)) as [canvas | e'] eqn:E;
    cbn [mbind result_bind]; [| now intros [= ->]].
  pose proof (Image_new_inv size canvas E) as Hs.
  rewrite (Image_new_ok size Hs) in E. injection E as <-.
  rewrite draw_all_ok by (apply icon_shapes_ok; lia). discriminate.
Qed.

Lemma create_family_health_icon_raises_at_new_negative :
  create_family_health_icon (P := ideal) (-1) = Raise ValueError /\
  Image_new "RGBA" (-1, -1) (0, 0, 0, 0) = Raise ValueError.
Proof.
  assert (H : create_family_health_icon (P := ideal) (-1) = Raise ValueError)
    by reflexivity.
  split; [exact H |].
  exact (create_family_health_icon_raises_at_new (P := ideal) (-1) ValueError H).
Defined.

(** X2. A pixel of the returned image is the transparent (0,0,0,0) exactly when
    no drawn shape covers it. *)
Theorem transparent_iff_undrawn `{P : Pillow} (size x y : Z) (canvas : Image) :
  0 < size ->
  Image_new "RGBA" (size, size) (0, 0, 0, 0) = Ok canvas ->
  0 <= x < size -> 0 <= y < size ->
  (create_family_health_icon size ≫= fun img => getpixel img x y)
    = Ok (0, 0, 0, 0)
  <-> drawn (icon_shapes size) x y = false.
Proof.
  intros Hs Hn Hx Hy. apply Image_new_inv in Hn.
  rewrite icon_pixel by (try lia; now apply in_canvas_blank).
  rewrite <- topmost_None_drawn.
  destruct (topmost (icon_shapes size) x y) as [t|] eqn:E; simpl.
  - split; [|discriminate]. intros [= Ht]. exfalso.
    apply topmost_Some in E as [Hin _].
    apply icon_fills in Hin. rewrite Ht in Hin.
    destruct Hin as [H | [H | [H | []]]]; discriminate H.
  - split; reflexivity.
Qed.

Lemma transparent_iff_undrawn_corner :
  0 < 1024 /\
  Image_new "RGBA" (1024, 1024) (0, 0, 0, 0) = Ok (blank 1024) /\
  0 <= 0 < 1024 /\
  ((create_family_health_icon (P := ideal) 1024 ≫= fun img => getpixel img 0 0)
     = Ok (0, 0, 0, 0)
   <-> drawn (P := ideal) (icon_shapes 1024) 0 0 = false).
Proof.
  split; [lia | split; [reflexivity | split; [lia |]]].
  apply (transparent_iff_undrawn (P := ideal) 1024 0 0 (blank 1024));
    [lia | reflexivity | lia | lia].
Defined.

Lemma cross_fills size : Forall (fun s => fill_of s = white) (cross size).
Proof.
  unfold cross, icon_shapes. cbv zeta. cbn [skipn].
  repeat (apply List.Forall_cons; [reflexivity |]). apply List.Forall_nil.
Qed.

(** X3. The cross is drawn last: every pixel of the canvas that one of its two
    rectangles covers holds the translucent white, whatever lies under it. *)
Theorem cross_on_top `{P : Pillow} (size x y : Z) (canvas : Image) :
  0 < size ->
  Image_new "RGBA" (size, size) (0, 0, 0, 0) = Ok canvas ->
  0 <= x < size -> 0 <= y < size ->
  drawn (cross size) x y = true ->
  (create_family_health_icon size ≫= fun img => getpixel img x y)
    = Ok (255, 255, 255, 230).
Proof.
  intros Hs Hn Hx Hy Hd. apply Image_new_inv in Hn.
  rewrite icon_pixel by (try lia; now apply in_canvas_blank).
  rewrite <- (firstn_skipn 12 (icon_shapes size)). fold (cross size).
  rewrite topmost_app.
  destruct (topmost_drawn _ _ _ Hd) as [t Et]. rewrite Et. simpl.
  apply topmost_Some in Et as [Hin _].
  pose proof (cross_fills size) as Hf. rewrite List.Forall_forall in Hf.
  now rewrite (Hf t Hin).
Qed.

Lemma cross_on_top_20 :
  0 < 20 /\
  Image_new "RGBA" (20, 20) (0, 0, 0, 0) = Ok (blank 20) /\
  0 <= 10 < 20 /\
  drawn (P := ideal) (cross 20) 10 10 = true /\
  (create_family_health_icon (P := ideal) 20 ≫= fun img => getpixel img 10 10)
    = Ok (255, 255, 255, 230).
Proof.
  assert (Hd : drawn (P := ideal) (cross 20) 10 10 = true)
    by (vm_compute; reflexivity).
  split; [lia | split; [reflexivity | split; [lia | split; [exact Hd |]]]].
  apply (cross_on_top (P := ideal) 20 10 10 (blank 20));
    [lia | reflexivity | lia | lia | exact Hd].
Defined.

(** X4. Every shape but the background disc lies inside the canvas: none of its
    pixels is clipped away. *)
Theorem shapes_inside_canvas `{P : Pillow} (size : Z) (s : shape) (x y : Z) :
  0 < size ->
  In s (tl (icon_shapes size)) ->
  covers s x y = true ->
  0 <= x < size /\ 0 <= y < size.
Proof.
  intros Hs Hin Hc. apply covers_shape_box in Hc.
  revert Hin. unfold icon_shapes. cbv zeta. scale_norm size Hs.
  cbn [tl In]. intros Hin.
  repeat (destruct Hin as [<- | Hin];
    [ cbn [shape_box in_box] in Hc; unfold in_hull_box in Hc;
      cbn [existsb fst snd] in Hc;
      rewrite ?orb_false_r, ?andb_true_iff, ?orb_true_iff, ?Z.leb_le in Hc;
      div_lia | ]).
  destruct Hin.
Qed.

Lemma shapes_inside_canvas_20 :
  0 < 20 /\
  In (rectangle (9, 10, 10, 10) white) (tl (icon_shapes 20)) /\
  covers (P := ideal) (rectangle (9, 10, 10, 10) white) 10 10 = true /\
  0 <= 10 < 20 /\ 0 <= 10 < 20.
Proof.
  assert (Hin : In (rectangle (9, 10, 10, 10) white) (tl (icon_shapes 20)))
    by (vm_compute; auto 20).
  split; [lia | split; [exact Hin | split; [reflexivity |]]].
  apply (shapes_inside_canvas (P := ideal) 20 _ 10 10 ltac:(lia) Hin).
  reflexivity.
Defined.

(** X5. Every coordinate handed to a drawing call is a sum of at most three
    truncated terms: it lies less than 3 below and less than 1 above the
    design coordinate (the one of size 1024) times [size / 1024]. *)
Theorem coords_near_design (size : Z) :
  0 < size ->
  Forall2 (fun c d => d * size - 3 * 1024 < 1024 * c < d * size + 1024)
    (flat_map coords (icon_shapes size))
    (flat_map coords (icon_shapes 1024)).
Proof.
  intros Hs.
  let l := eval vm_compute in (flat_map coords (icon_shapes 1024)) in
  change (flat_map coords (icon_shapes 1024)) with l.
  unfold icon_shapes. cbv zeta. scale_norm size Hs.
  cbn [flat_map coords app fst snd].
  repeat (apply Forall2_cons_2; [div_lia |]). apply Forall2_nil_2.
Qed.

Lemma coords_near_design_20 :
  0 < 20 /\
  Forall2 (fun c d => d * 20 - 3 * 1024 < 1024 * c < d * 20 + 1024)
    (flat_map coords (icon_shapes 20))
    (flat_map coords (icon_shapes 1024)).
Proof. split; [lia | apply (coords_near_design 20); lia]. Defined.

Lemma scaled_multiple (k m : Z) : scaled k (1024 * m) = k * m.
Proof.
  unfold scaled. replace (k * (1024 * m)) with (k * m * 1024) by lia.
  apply Z.quot_mul. discriminate.
Qed.

(** X6. At a whole multiple [1024 m] of the design size no coordinate is
    rounded: the calls are those of size 1024 with every coordinate
    multiplied by [m]. *)
Theorem icon_shapes_scaling (m : Z) :
  0 < m ->
  icon_shapes (1024 * m) = map (scale_shape m) (icon_shapes 1024).
Proof.
  intros Hm.
  let l := eval vm_compute in (icon_shapes 1024) in
  change (icon_shapes 1024) with l.
  unfold icon_shapes. cbv zeta. int_norm (1024 * m).
  rewrite !scaled_multiple.
  cbn [map scale_shape scale_box fst snd]. shapes_eq.
Qed.

Lemma icon_shapes_scaling_2 :
  0 < 2 /\ icon_shapes (1024 * 2) = map (scale_shape 2) (icon_shapes 1024).
Proof. split; [lia | apply (icon_shapes_scaling 2); lia]. Defined.

(** X7. Truncation keeps the proportions of the composition: at every size each
    ellipse has a square box (it is a circle), and each body has its corner
    radius half its width, rounded down, and is at least twice as tall as
    wide. *)
Theorem icon_shapes_proportions (size : Z) :
  0 < size -> Forall well_proportioned (icon_shapes size).
Proof.
  intros Hs. unfold icon_shapes. cbv zeta. scale_norm size Hs.
  repeat (apply List.Forall_cons; [cbn [well_proportioned]; try div_lia |]);
    try exact I.
  apply List.Forall_nil.
Qed.

Lemma icon_shapes_proportions_20 :
  0 < 20 /\ Forall well_proportioned (icon_shapes 20).
Proof. split; [lia | apply (icon_shapes_proportions 20); lia]. Defined.

(** From size 127 on, the middle of the canvas lies outside the bounding
    box of every shape but the background disc. *)
Lemma centre_outside size :
  127 <= size ->
  forallb (fun s => negb (shape_box s (size / 2) (size / 2)))
    (tl (icon_shapes size)) = true.
Proof.
  intros Hs. unfold icon_shapes. cbv zeta. scale_norm size Hs.
  cbn [tl forallb shape_box in_box]. unfold in_hull_box.
  cbn [existsb fst snd]. rewrite ?orb_false_r.
  repeat (apply andb_true_intro; split); try reflexivity;
    apply negb_true_iff, not_true_is_false;
    rewrite ?andb_true_iff, ?orb_true_iff, ?Z.leb_le; div_lia.
Qed.

(** X8. From size 127 on, the pixel in the middle of the canvas, [(size // 2,
    size // 2)], shows the background: it holds the blue (74,144,226,255). *)
Theorem centre_pixel_background `{P : Pillow} (size : Z) (canvas : Image) :
  127 <= size ->
  Image_new "RGBA" (size, size) (0, 0, 0, 0) = Ok canvas ->
  (create_family_health_icon size ≫=
     fun img => getpixel img (size / 2) (size / 2))
    = Ok (74, 144, 226, 255).
Proof.
  intros Hs Hn. apply Image_new_inv in Hn.
  assert (Hm : 0 <= size / 2 < size) by div_lia.
  rewrite icon_pixel by (try lia; now apply in_canvas_blank).
  pose proof (centre_outside size Hs) as Ho.
  replace (icon_shapes size)
    with (ellipse (0, 0, size, size) blue :: tl (icon_shapes size))
    by reflexivity.
  cbn [topmost]. rewrite (topmost_outside _ _ _ Ho). cbn [covers].
  pose proof (ellipse_centre 0 0 size size ltac:(lia) ltac:(lia)) as Hc.
  rewrite Z.add_0_l in Hc. now rewrite Hc.
Qed.

Lemma centre_pixel_background_167 :
  127 <= 167 /\
  Image_new "RGBA" (167, 167) (0, 0, 0, 0) = Ok (blank 167) /\
  (create_family_health_icon (P := ideal) 167 ≫=
     fun img => getpixel img (167 / 2) (167 / 2))
    = Ok (74, 144, 226, 255).
Proof.
  split; [lia | split; [reflexivity |]].
  apply (centre_pixel_background (P := ideal) 167 (blank 167));
    [lia | reflexivity].
Defined.

(** * Further properties of the batch writer *)

Lemma generate_missing `{P : Pillow} e l fs :
  0 <= int e.1 <= 2147483647 -> dirname (icon_path e.2) = output_dir ->
  output_dir ∉ dirs fs ->
  generate fs (e :: l) = Raise FileNotFoundError.
Proof.
  destruct e as [size filename]. cbn [fst snd]. intros Hs Hd Ho.
  cbn [generate]. rewrite (create_ok (int size) Hs).
  cbn [mbind result_bind]. unfold save. fold (icon_path filename).
  rewrite Hd.
  destruct (decide (output_dir ∈ dirs fs)); [contradiction | reflexivity].
Qed.

(** X9. When the output directory does not exist, [main] stops at the first
    save with [FileNotFoundError]: the script does not create it. *)
Theorem main_missing_directory `{P : Pillow} (fs : filesystem) :
  output_dir ∉ dirs fs -> main fs = Raise FileNotFoundError.
Proof.
  intros Ho. pose proof icon_sizes_ok as Hl. unfold main, icon_sizes in *.
  apply Forall_cons_1 in Hl as [[Hs Hd] _].
  exact (generate_missing _ _ _ Hs Hd Ho).
Qed.

Lemma main_missing_directory_bare :
  (output_dir ∉ dirs bare_disk) /\
  main (P := ideal) bare_disk = Raise FileNotFoundError.
Proof.
  assert (Ho : output_dir ∉ dirs bare_disk)
    by (cbn [dirs bare_disk]; apply not_elem_of_empty).
  split; [exact Ho | exact (main_missing_directory (P := ideal) bare_disk Ho)].
Defined.

(** X10. A run of [main] that ends normally creates no directory and leaves
    every file but the ten of the list as it was. *)
Theorem main_frame `{P : Pillow} (fs out : filesystem) :
  main fs = Ok out ->
  dirs out = dirs fs /\
  forall path,
    ~ In path (map (fun e => os_path_join output_dir e.2) icon_sizes) ->
    files out !! path = files fs !! path.
Proof.
  intros H. apply main_inv in H as [_ ->]. cbn [dirs files].
  split; [reflexivity |]. intros path Hp. now apply written_other.
Qed.

Lemma main_frame_stale :
  exists out,
    main (P := ideal) stale_disk = Ok out /\
    dirs out = dirs stale_disk /\
    forall path,
      ~ In path (map (fun e => os_path_join output_dir e.2) icon_sizes) ->
      files out !! path = files stale_disk !! path.
Proof.
  assert (Ho : output_dir ∈ dirs stale_disk)
    by (cbn [dirs fresh_disk stale_disk]; apply elem_of_singleton_2; reflexivity).
  eexists. split; [exact (main_ok stale_disk Ho) |].
  exact (main_frame (P := ideal) _ _ (main_ok stale_disk Ho)).
Defined.

(** X11. After a run of [main] that ends normally, the file of every entry of
    the list holds the encoding of the image rendered at the entry's size
    truncated to an int, a square of that many pixels each way: no entry
    overwrites the file of another. *)
Theorem main_writes_every_icon `{P : Pillow} (fs out : filesystem)
    (size : float) (filename : string) :
  main fs = Ok out ->
  In (size, filename) icon_sizes ->
  exists img,
    create_family_health_icon (int size) = Ok img /\
    im_width img = int size /\ im_height img = int size /\
    files out !! os_path_join output_dir filename = Some (png_encode img).
Proof.
  intros H Hin. apply main_inv in H as [_ ->]. cbn [files].
  exists (icon_image (int size)).
  assert (Hs : 0 <= int size <= 2147483647).
  { pose proof icon_sizes_ok as Hl. rewrite List.Forall_forall in Hl.
    exact (proj1 (Hl _ Hin)). }
  destruct (icon_image_dims (int size)) as (_ & Hw & Hh).
  split; [now apply create_ok | split; [exact Hw | split; [exact Hh |]]].
  exact (written_entry icon_sizes (files fs) _ icon_paths_nodup Hin).
Qed.

Lemma main_writes_every_icon_1024 :
  exists out,
    main (P := ideal) fresh_disk = Ok out /\
    In (1024%Q, "icon_1024.png") icon_sizes /\
    exists img,
      create_family_health_icon (P := ideal) (int 1024%Q) = Ok img /\
      im_width img = int 1024%Q /\ im_height img = int 1024%Q /\
      files out !! os_path_join output_dir "icon_1024.png"
        = Some (png_encode img).
Proof.
  assert (Ho : output_dir ∈ dirs fresh_disk)
    by (cbn [dirs fresh_disk stale_disk]; apply elem_of_singleton_2; reflexivity).
  assert (Hin : In (1024%Q, "icon_1024.png") icon_sizes)
    by (unfold icon_sizes; simpl; auto 12).
  eexists. split; [exact (main_ok fresh_disk Ho) | split; [exact Hin |]].
  exact (main_writes_every_icon (P := ideal) _ _ _ _
           (main_ok fresh_disk Ho) Hin).
Defined.
